(** * The view-window controller of [virtual-repeat.ts]

    A shallow embedding of the [VirtualRepeat] class: its window state, its
    guard flags, the rendered views of its view slot, and the callbacks it
    hands to the task queue, to [requestAnimationFrame] and to promises.
    Numbers that the class uses as indices, counts and pixel heights are
    integers ([Z]); closures handed to the host are first-order data that
    the host runs later. *)

From stdpp Require Import base option list gmap strings.
From Stdlib Require Import ZArith Lia.

Local Open Scope Z_scope.

(** ** Data *)

Definition Item := Z.

(** The bound [items] value.  The class declares it [any[]] but tests it
    for truthiness and hands it to the strategy locator, so values that are
    no array are kept. *)
Inductive Items :=
| ItemsNull                      (* null or undefined *)
| ItemsArray (l : list Item)
| ItemsOther (isTruthy : bool).  (* a number, a string, a plain object, ... *)

Definition truthy (i : Items) : bool :=
  match i with
  | ItemsNull => false
  | ItemsArray _ => true
  | ItemsOther b => b
  end.

Inductive Expression := Expr (id : nat).

(** [IScrollNextScrollContext] *)
Record IScrollNextScrollContext := mkScrollContext {
  topIndex : Z;
  isAtBottom : bool;
  isAtTop : bool
}.

(** A member of the binding context, as [_getMore] sees it: a function
    (of which the repeat only observes whether the result of a call is a
    [Promise]) or any other value. *)
Inductive Member :=
| MFunction (returnsPromise : Z -> bool -> bool -> bool)
| MValue.

Record OverrideContext := mkOverrideContext {
  oc_bindingContext : gmap string Member;
  scrollContext : option IScrollNextScrollContext   (* $scrollContext *)
}.

Record Scope := mkScope {
  bindingContext : gmap string Member;
  overrideContext : OverrideContext
}.

(** [instruction.attributes['infinite-scroll-next']] of the first child's
    [au] controller. *)
Inductive AttrValue :=
| AttrUndefined
| AttrString (s : string)
| AttrBinding (sourceExpression : option Expression).

Record ViewElement := mkViewElement {
  au_scroll_next : option AttrValue;       (* au && au['infinite-scroll-next'] *)
  getAttribute_scroll_next : option string (* getAttribute('infinite-scroll-next') *)
}.

(** [IView]: [index] is [overrideContext.$index], [bound] is
    [bindingContext[local]]. *)
Record IView := mkView {
  view_key : nat;
  index : Z;
  bound : option Item;
  firstChild : option ViewElement
}.

Inductive ScrollerRef := HtmlElementRef | ScrollerElRef.

(** [IScrollerInfo] *)
Record IScrollerInfo := mkScrollerInfo {
  scroller : ScrollerRef;
  scrollHeight : Z;
  scrollTop : Z;
  height : Z
}.

(** What the class reads from a scroller element. *)
Record HTMLElement := mkElement {
  el_scrollHeight : Z;
  el_scrollTop : Z;
  el_calcScrollHeight : Z;     (* calcScrollHeight(el) *)
  el_hasOverflowScroll : bool  (* hasOverflowScroll(el) *)
}.

Inductive VirtualRepeatCallContext :=
| handleCollectionMutated_ctx
| handleInnerCollectionMutated_ctx.

Inductive StrategyRef := StrategyObj (id : nat).
Inductive CollectionObserver := ObserverObj (id : nat).

(** [ICollectionObserverSplice] *)
Record Splice := mkSplice {
  splice_index : Z;
  splice_removed : list Item;
  splice_addedCount : Z
}.

(** ** Callbacks handed to the host *)

(** Callbacks of [taskQueue.queueMicroTask]. *)
Inductive MicroTask :=
| HandleScrollTask (currentScrollerInfo : IScrollerInfo)
                   (prevScrollerInfo : option IScrollerInfo)
| ResetIgnoreMutationTask.

(** Callbacks of [requestAnimationFrame]. *)
Inductive FrameCallback :=
| ExecuteGetMore (topIndex : Z) (isNearTop isNearBottom : bool)
| RevertScrollCheckGuard.

(** Callbacks of [setInterval]. *)
Inductive IntervalCallback :=
| SizePoll
| DistanceToTopPoll.

(** Reactions registered with [then] on a promise a handler returned. *)
Inductive PromiseReaction :=
| ResetCalledGetMore.

(** What the repeat asks of the binding context and of expressions. *)
Inductive HandlerCall :=
| CallFunction (name : string) (arg1 : Z) (arg2 arg3 : bool)
               (ctx : option IScrollNextScrollContext)
| EvaluateExpression (e : Expression) (ctx : option IScrollNextScrollContext).

Inductive Error :=
| TypeError (what : string)
| JsError (message : string).

(** ** The repeat and its host *)

Record VirtualRepeat := mkVirtualRepeat {
  (* window *)
  _first : Z;
  _viewsLength : Z;
  _topBufferHeight : Z;
  _bottomBufferHeight : Z;
  itemHeight : Z;
  elementsInView : Z;
  distanceToTop : Z;
  edgeDistance : Z;
  (* guards *)
  _isAttached : bool;
  _ticking : bool;
  _fixedHeightContainer : bool;
  _isAtTop : bool;
  _calledGetMore : bool;
  _skipNextScrollHandle : bool;
  _handlingMutations : bool;
  _ignoreMutation : bool;
  isOneTime : bool;
  (* bindings *)
  items : Items;
  scope : option Scope;
  strategy : option StrategyRef;
  collectionObserver : option CollectionObserver;
  callContext : option VirtualRepeatCallContext;
  (* rendered views: viewSlot.children *)
  viewSlot : list IView;
  (* scroller and buffers *)
  _currScrollerInfo : option IScrollerInfo;
  _prevScrollerInfo : option IScrollerInfo;
  scrollerEl : option HTMLElement;
  topBufferEl : option Z;       (* style.height in px, when the element exists *)
  bottomBufferEl : option Z;
  _scrollerResizeObserver : bool;
  _scrollerEvents : bool;
  _currScrollerContentRect : option (Z * Z);
  _sizeInterval : Z;
  _calcDistanceToTopInterval : Z;
  (* host: task queue, frames, timers, promises, document, console *)
  taskQueue : list MicroTask;
  animationFrames : list FrameCallback;
  intervals : list (Z * IntervalCallback);
  promiseReactions : list PromiseReaction;
  scrollListener : option ScrollerRef;
  documentElement : HTMLElement;
  innerHeight : Z;
  console : list string;
  handlerCalls : list HandlerCall;
  uncaughtErrors : list Error
}.

(** Field update.  [eta r] spells the record out; a setter replaces one
    projection of that term. *)
Definition eta (r : VirtualRepeat) : VirtualRepeat :=
  mkVirtualRepeat
    (_first r) (_viewsLength r) (_topBufferHeight r) (_bottomBufferHeight r)
    (itemHeight r) (elementsInView r) (distanceToTop r) (edgeDistance r)
    (_isAttached r) (_ticking r) (_fixedHeightContainer r) (_isAtTop r)
    (_calledGetMore r) (_skipNextScrollHandle r) (_handlingMutations r)
    (_ignoreMutation r) (isOneTime r)
    (items r) (scope r) (strategy r) (collectionObserver r) (callContext r)
    (viewSlot r)
    (_currScrollerInfo r) (_prevScrollerInfo r) (scrollerEl r)
    (topBufferEl r) (bottomBufferEl r)
    (_scrollerResizeObserver r) (_scrollerEvents r) (_currScrollerContentRect r)
    (_sizeInterval r) (_calcDistanceToTopInterval r)
    (taskQueue r) (animationFrames r) (intervals r) (promiseReactions r)
    (scrollListener r) (documentElement r) (innerHeight r)
    (console r) (handlerCalls r) (uncaughtErrors r).

Class Setter {T : Type} (proj : VirtualRepeat -> T) :=
  setField : T -> VirtualRepeat -> VirtualRepeat.
Arguments setField {T} proj {Setter} _ _ /.

Ltac make_setter proj :=
  let v := fresh "v" in
  let r := fresh "r" in
  intros v r;
  let e := eval cbv [eta] in (eta r) in
  match eval pattern (proj r) in e with
  | ?f _ => let t := eval cbv beta in (f v) in exact t
  end.

#[global] Instance set_first : Setter _first.
Proof. make_setter _first. Defined.
#[global] Instance set_viewsLength : Setter _viewsLength.
Proof. make_setter _viewsLength. Defined.
#[global] Instance set_topBufferHeight : Setter _topBufferHeight.
Proof. make_setter _topBufferHeight. Defined.
#[global] Instance set_bottomBufferHeight : Setter _bottomBufferHeight.
Proof. make_setter _bottomBufferHeight. Defined.
#[global] Instance set_itemHeight : Setter itemHeight.
Proof. make_setter itemHeight. Defined.
#[global] Instance set_elementsInView : Setter elementsInView.
Proof. make_setter elementsInView. Defined.
#[global] Instance set_distanceToTop : Setter distanceToTop.
Proof. make_setter distanceToTop. Defined.
#[global] Instance set_isAttached : Setter _isAttached.
Proof. make_setter _isAttached. Defined.
#[global] Instance set_ticking : Setter _ticking.
Proof. make_setter _ticking. Defined.
#[global] Instance set_fixedHeightContainer : Setter _fixedHeightContainer.
Proof. make_setter _fixedHeightContainer. Defined.
#[global] Instance set_isAtTop : Setter _isAtTop.
Proof. make_setter _isAtTop. Defined.
#[global] Instance set_calledGetMore : Setter _calledGetMore.
Proof. make_setter _calledGetMore. Defined.
#[global] Instance set_skipNextScrollHandle : Setter _skipNextScrollHandle.
Proof. make_setter _skipNextScrollHandle. Defined.
#[global] Instance set_handlingMutations : Setter _handlingMutations.
Proof. make_setter _handlingMutations. Defined.
#[global] Instance set_ignoreMutation : Setter _ignoreMutation.
Proof. make_setter _ignoreMutation. Defined.
#[global] Instance set_items : Setter items.
Proof. make_setter items. Defined.
#[global] Instance set_scope : Setter scope.
Proof. make_setter scope. Defined.
#[global] Instance set_strategy : Setter strategy.
Proof. make_setter strategy. Defined.
#[global] Instance set_collectionObserver : Setter collectionObserver.
Proof. make_setter collectionObserver. Defined.
#[global] Instance set_callContext : Setter callContext.
Proof. make_setter callContext. Defined.
#[global] Instance set_viewSlot : Setter viewSlot.
Proof. make_setter viewSlot. Defined.
#[global] Instance set_currScrollerInfo : Setter _currScrollerInfo.
Proof. make_setter _currScrollerInfo. Defined.
#[global] Instance set_scrollerEl : Setter scrollerEl.
Proof. make_setter scrollerEl. Defined.
#[global] Instance set_topBufferEl : Setter topBufferEl.
Proof. make_setter topBufferEl. Defined.
#[global] Instance set_bottomBufferEl : Setter bottomBufferEl.
Proof. make_setter bottomBufferEl. Defined.
#[global] Instance set_scrollerResizeObserver : Setter _scrollerResizeObserver.
Proof. make_setter _scrollerResizeObserver. Defined.
#[global] Instance set_scrollerEvents : Setter _scrollerEvents.
Proof. make_setter _scrollerEvents. Defined.
#[global] Instance set_currScrollerContentRect : Setter _currScrollerContentRect.
Proof. make_setter _currScrollerContentRect. Defined.
#[global] Instance set_sizeInterval : Setter _sizeInterval.
Proof. make_setter _sizeInterval. Defined.
#[global] Instance set_calcDistanceToTopInterval : Setter _calcDistanceToTopInterval.
Proof. make_setter _calcDistanceToTopInterval. Defined.
#[global] Instance set_taskQueue : Setter taskQueue.
Proof. make_setter taskQueue. Defined.
#[global] Instance set_animationFrames : Setter animationFrames.
Proof. make_setter animationFrames. Defined.
#[global] Instance set_intervals : Setter intervals.
Proof. make_setter intervals. Defined.
#[global] Instance set_promiseReactions : Setter promiseReactions.
Proof. make_setter promiseReactions. Defined.
#[global] Instance set_scrollListener : Setter scrollListener.
Proof. make_setter scrollListener. Defined.
#[global] Instance set_documentElement : Setter documentElement.
Proof. make_setter documentElement. Defined.
#[global] Instance set_console : Setter console.
Proof. make_setter console. Defined.
#[global] Instance set_handlerCalls : Setter handlerCalls.
Proof. make_setter handlerCalls. Defined.
#[global] Instance set_uncaughtErrors : Setter uncaughtErrors.
Proof. make_setter uncaughtErrors. Defined.

#[warnings="-postfix-notation-not-level-1"]
Notation "r <| proj := v |>" := (setField proj v r)
  (at level 12, left associativity, format "r  <| proj  :=  v |>").

(** ** Views of the view slot *)

(** [viewCount()] *)
Definition viewCount (r : VirtualRepeat) : Z :=
  Z.of_nat (length (viewSlot r)).

(** [views()] *)
Definition views (r : VirtualRepeat) : list IView := viewSlot r.

(** [view(index)] *)
Definition view (i : Z) (r : VirtualRepeat) : option IView :=
  if (i <? 0) || (i >? Z.of_nat (length (viewSlot r)) - 1)
  then None
  else viewSlot r !! Z.to_nat i.

(** [_firstView()] *)
Definition _firstView (r : VirtualRepeat) : option IView := view 0 r.

(** [_lastView()] *)
Definition _lastView (r : VirtualRepeat) : option IView :=
  view (viewCount r - 1) r.

(** [_firstViewIndex()] *)
Definition _firstViewIndex (r : VirtualRepeat) : Z :=
  match _firstView r with
  | None => -1
  | Some firstView => index firstView
  end.

(** [_lastViewIndex()] *)
Definition _lastViewIndex (r : VirtualRepeat) : Z :=
  match _lastView r with
  | None => -1
  | Some lastView => index lastView
  end.


(** ** Control flow: state, exceptions, loops that do not end *)

Inductive Completion (A : Type) :=
| Normal (a : A)
| Throw (e : Error)
| Diverge.
Arguments Normal {A} a.
Arguments Throw {A} e.
Arguments Diverge {A}.

(** A method body: it runs on the repeat and leaves it changed, also when
    it throws. *)
Definition M (A : Type) : Type := VirtualRepeat -> Completion A * VirtualRepeat.

#[global] Instance M_ret : MRet M := fun A a r => (Normal a, r).

#[global] Instance M_bind : MBind M := fun A B f m r =>
  match m r with
  | (Normal a, r') => f a r'
  | (Throw e, r') => (Throw e, r')
  | (Diverge, r') => (Diverge, r')
  end.

Definition gets {A : Type} (f : VirtualRepeat -> A) : M A :=
  fun r => (Normal (f r), r).

Definition modify (f : VirtualRepeat -> VirtualRepeat) : M unit :=
  fun r => (Normal tt, f r).

Definition throw {A : Type} (e : Error) : M A :=
  fun r => (Throw e, r).

Definition diverge {A : Type} : M A :=
  fun r => (Diverge, r).

(** A call of a method that returns a value and leaves the repeat changed. *)
Definition call {A : Type} (f : VirtualRepeat -> A * VirtualRepeat) : M A :=
  fun r => (Normal (f r).1, (f r).2).

Definition when (b : bool) (m : M unit) : M unit :=
  if b then m else mret tt.

(** [requestAnimationFrame(cb)] *)
Definition requestAnimationFrame (cb : FrameCallback) : M unit :=
  modify (fun r => r <| animationFrames := animationFrames r ++ [cb] |>).

(** [taskQueue.queueMicroTask(cb)] *)
Definition queueMicroTask (cb : MicroTask) : M unit :=
  modify (fun r => r <| taskQueue := taskQueue r ++ [cb] |>).

(** [console.warn(msg)] *)
Definition console_warn (msg : string) : M unit :=
  modify (fun r => r <| console := console r ++ [msg] |>).

(** ** The collection strategy, as scroll handling uses it

    [IVirtualRepeatStrategy] lives in another file; its methods are taken
    as given.  [getViewRange], [isNearTop] and [isNearBottom] return a
    value; [updateBuffers] and [remeasure] act on the repeat. *)
Class ScrollStrategy := {
  getViewRange : VirtualRepeat -> IScrollerInfo -> Z * Z;
  isNearTop : VirtualRepeat -> Z -> bool;
  isNearBottom : VirtualRepeat -> Z -> bool;
  updateBuffers : Z -> VirtualRepeat -> VirtualRepeat;
  remeasure : VirtualRepeat -> VirtualRepeat
}.

(** ** Moving views *)

(** [items[index]] *)
Definition item_at (its : Items) (i : Z) : option Item :=
  match its with
  | ItemsArray l => if i <? 0 then None else l !! Z.to_nat i
  | _ => None
  end.

Definition rebind (its : Items) (i : Z) (v : IView) : IView :=
  mkView (view_key v) i (item_at its i) (firstChild v).

(** Modelled from the spec: [rebindAndMoveView] of [./utilities] is not
    among the sources.  The spec has scroll handling "move views from the
    head of the rendered set to the tail, rebinding each to its new index"
    (and from the tail to the head when scrolling up), a rendered view
    being "bound to a data item and carrying its current logical index".
    The callers pass the head view with [moveToBottom] and the last view
    without; a missing view cannot be rebound. *)
Definition rebindAndMoveView (v : option IView) (i : Z) (moveToBottom : bool)
  : M unit :=
  match v with
  | None => throw (TypeError "cannot rebind a null view")
  | Some v =>
      modify (fun r =>
        let v' := rebind (items r) i v in
        r <| viewSlot := if moveToBottom
                         then tail (viewSlot r) ++ [v']
                         else v' :: removelast (viewSlot r) |>)
  end.

(** The loop [while (viewsCount--) { ... --startIndex ... }] of the branch
    that moves views to the top. *)
Fixpoint moveViewsUp (viewsCount : nat) (startIndex : Z) : M unit :=
  match viewsCount with
  | O => mret tt
  | S n =>
      v ← gets _lastView;
      rebindAndMoveView v (startIndex - 1) false;;
      moveViewsUp n (startIndex - 1)
  end.

(** The loop [while (viewsCount--) { ... ++lastIndex ... }] of the branch
    that moves views to the bottom. *)
Fixpoint moveViewsDown (viewsCount : nat) (lastIndex : Z) : M unit :=
  match viewsCount with
  | O => mret tt
  | S n =>
      v ← gets (view 0);
      rebindAndMoveView v (lastIndex + 1) true;;
      moveViewsDown n (lastIndex + 1)
  end.

(** [_moveViews(viewsCount, direction)].  A negative count never counts
    down to zero: the first round runs and the loop does not end. *)
Definition _moveViews (viewsCount : Z) (direction : Z) : M unit :=
  if direction =? -1 then
    startIndex ← gets _firstViewIndex;
    if viewsCount <? 0 then
      v ← gets _lastView;
      rebindAndMoveView v (startIndex - 1) false;;
      diverge
    else moveViewsUp (Z.to_nat viewsCount) startIndex
  else
    lastIndex ← gets _lastViewIndex;
    if viewsCount <? 0 then
      v ← gets (view 0);
      rebindAndMoveView v (lastIndex + 1) true;;
      diverge
    else moveViewsDown (Z.to_nat viewsCount) lastIndex.

(** ** Asking for more items *)

(** [_getMore(topIndex, isNearTop, isNearBottom, force)]: the closure
    [executeGetMore] is handed to [requestAnimationFrame]. *)
Definition _getMore (topIndex : Z) (isNearTop isNearBottom force : bool)
  : M unit :=
  when (isNearTop || isNearBottom || force)
    (calledGetMore ← gets _calledGetMore;
     when (negb calledGetMore)
       (requestAnimationFrame (ExecuteGetMore topIndex isNearTop isNearBottom))).

(** The attribute value [func] that [executeGetMore] reads off the first
    view. *)
Definition scrollNextAttribute (firstView : option IView) : AttrValue :=
  match firstView with
  | Some fv =>
      match firstChild fv with
      | Some el =>
          match au_scroll_next el with
          | Some a => a
          | None => AttrUndefined
          end
      | None => AttrUndefined
      end
  | None => AttrUndefined
  end.

(** [$scrollContext] of the override context of the scope, as a handler
    that runs now would read it. *)
Definition currentScrollContext (r : VirtualRepeat)
  : option IScrollNextScrollContext :=
  s ← scope r; scrollContext (overrideContext s).

Definition recordCall (c : option IScrollNextScrollContext -> HandlerCall)
  : M unit :=
  modify (fun r =>
    r <| handlerCalls := handlerCalls r ++ [c (currentScrollContext r)] |>).

Definition must_be_a_function : string :=
  "'infinite-scroll-next' must be a function or evaluate to one".

(** The closure [executeGetMore] of [_getMore]. *)
Definition executeGetMore (topIndex : Z) (isNearTop isNearBottom : bool)
  : M unit :=
  modify (setField _calledGetMore true);;
  firstView ← gets _firstView;
  match scrollNextAttribute firstView with
  | AttrUndefined => modify (setField _calledGetMore false)
  | func =>
      let scrollContext := mkScrollContext topIndex isNearBottom isNearTop in
      sc ← gets scope;
      match sc with
      | None => throw (TypeError "scope is null")
      | Some s =>
          let overrideContext' :=
            mkOverrideContext (oc_bindingContext (overrideContext s))
                              (Some scrollContext) in
          modify (setField scope
                    (Some (mkScope (bindingContext s) overrideContext')));;
          match func with
          | AttrString _ =>
              let bindingContext := oc_bindingContext overrideContext' in
              let getMoreFuncName :=
                default "null"%string
                  (fv ← firstView; el ← firstChild fv;
                   getAttribute_scroll_next el) in
              match bindingContext !! getMoreFuncName with
              | Some (MFunction returnsPromise) =>
                  recordCall
                    (CallFunction getMoreFuncName topIndex
                                  isNearBottom isNearTop);;
                  if negb (returnsPromise topIndex isNearBottom isNearTop)
                  then modify (setField _calledGetMore false)
                  else modify (fun r =>
                         r <| promiseReactions :=
                                promiseReactions r ++ [ResetCalledGetMore] |>)
              | _ => throw (JsError must_be_a_function)
              end
          | AttrBinding (Some e) =>
              modify (setField _calledGetMore false);;
              recordCall (EvaluateExpression e)
          | _ => throw (JsError must_be_a_function)
          end
      end
  end.

(** ** Scroll handling *)

Section ScrollHandling.
Context `{ScrollStrategy}.

(** The branches of [_handleScroll] between the range computation and the
    tail of the method: each gives the values it leaves in the locals
    [didMovedViews] and [should_call_scroll_next]. *)
Definition handleRanges
    (old_range_start_index old_range_end_index
     new_range_start_index new_range_end_index : Z) : M (Z * Z) :=
  if (new_range_start_index >=? old_range_start_index)
       && (old_range_end_index =? new_range_end_index)
     || (new_range_end_index =? old_range_end_index)
       && (old_range_end_index >=? new_range_end_index)
  then
    if (new_range_start_index >=? old_range_start_index)
         && (old_range_end_index =? new_range_end_index)
    then
      nearBottom ← gets (fun r => isNearBottom r new_range_end_index);
      mret (0, if nearBottom : bool then 1 else 0)
    else
      nearTop ← gets (fun r => isNearTop r new_range_start_index);
      mret (0, if nearTop : bool then -1 else 0)
  else
    if (new_range_start_index >? old_range_start_index)
         && (old_range_end_index >=? new_range_start_index)
         && (new_range_end_index >=? old_range_end_index)
    then
      let views_to_move_count := new_range_start_index - old_range_start_index in
      _moveViews views_to_move_count 1;;
      mret (1, 1)
    else if (old_range_start_index >? new_range_start_index)
              && (old_range_start_index <=? new_range_end_index)
              && (old_range_end_index >=? new_range_end_index)
    then
      let views_to_move_count := old_range_end_index - new_range_end_index in
      _moveViews views_to_move_count (-1);;
      mret (1, -1)
    else if (old_range_end_index <? new_range_start_index)
              || (old_range_start_index >? new_range_end_index)
    then
      modify remeasure;;
      if old_range_end_index <? new_range_start_index then
        nearBottom ← gets (fun r => isNearBottom r new_range_end_index);
        mret (0, if nearBottom : bool then 1 else 0)
      else
        nearTop ← gets (fun r => isNearTop r new_range_start_index);
        mret (0, if nearTop : bool then -1 else 0)
    else
      console_warn "Scroll intersection not handled";;
      modify remeasure;;
      mret (0, 0).

(** [_handleScroll(currentScrollerInfo, prevScrollerInfo)] *)
Definition _handleScroll (currentScrollerInfo : IScrollerInfo)
    (prevScrollerInfo : option IScrollerInfo) : M unit :=
  isAttached ← gets _isAttached;
  if negb isAttached then mret tt else
  skipNextScrollHandle ← gets _skipNextScrollHandle;
  if skipNextScrollHandle : bool then modify (setField _skipNextScrollHandle false) else
  its ← gets items;
  if negb (truthy its) then mret tt else
  strat ← gets strategy;
  match strat with
  | None => throw (TypeError "strategy is null")
  | Some _ =>
      old_range_start_index ← gets _first;
      old_range_end_index ← gets _lastViewIndex;
      '(new_range_start_index, new_range_end_index) ←
        gets (fun r => getViewRange r currentScrollerInfo);
      '(didMovedViews, should_call_scroll_next) ←
        handleRanges old_range_start_index old_range_end_index
                     new_range_start_index new_range_end_index;
      when (didMovedViews =? 1)
        (modify (setField _first new_range_start_index);;
         modify (updateBuffers new_range_start_index));;
      when (negb (should_call_scroll_next =? 0))
        (nearTop ← gets (fun r => isNearTop r new_range_start_index);
         nearBottom ← gets (fun r => isNearBottom r new_range_end_index);
         _getMore new_range_start_index nearTop nearBottom false)
  end.

End ScrollHandling.

(** ** Scroll notifications *)

(** [getScrollerInfo()], with [getScroller()] inlined: the scroller is
    [scrollerEl] in a fixed height container and [document.documentElement]
    otherwise. *)
Definition getScrollerInfo : M IScrollerInfo :=
  fixedHeightContainer ← gets _fixedHeightContainer;
  if fixedHeightContainer : bool then
    el ← gets scrollerEl;
    match el with
    | None => throw (TypeError "scroller is null")
    | Some e =>
        mret (mkScrollerInfo ScrollerElRef (el_scrollHeight e) (el_scrollTop e)
                             (el_calcScrollHeight e))
    end
  else
    d ← gets documentElement;
    h ← gets innerHeight;
    mret (mkScrollerInfo HtmlElementRef (el_scrollHeight d) (el_scrollTop d) h).

(** [_onScroll()] *)
Definition _onScroll : M unit :=
  isHandlingMutations ← gets _handlingMutations;
  ticking ← gets _ticking;
  when (negb ticking && negb isHandlingMutations)
    (currentScrollerInfo ← getScrollerInfo;
     prevScrollerInfo ← gets _currScrollerInfo;
     modify (setField _currScrollerInfo (Some currentScrollerInfo));;
     queueMicroTask (HandleScrollTask currentScrollerInfo prevScrollerInfo);;
     modify (setField _ticking true));;
  when isHandlingMutations (modify (setField _handlingMutations false)).

(** ** Reset and detach *)

(** [_updateBufferElements(skipUpdate)] *)
Definition _updateBufferElements (skipUpdate : bool) : M unit :=
  top ← gets topBufferEl;
  match top with
  | None => throw (TypeError "topBufferEl is null")
  | Some _ =>
      modify (fun r => r <| topBufferEl := Some (_topBufferHeight r) |>);;
      bottom ← gets bottomBufferEl;
      match bottom with
      | None => throw (TypeError "bottomBufferEl is null")
      | Some _ =>
          modify (fun r => r <| bottomBufferEl := Some (_bottomBufferHeight r) |>);;
          when skipUpdate
            (modify (setField _ticking true);;
             requestAnimationFrame RevertScrollCheckGuard)
      end
  end.

(** [_resetCalculation()] *)
Definition _resetCalculation : M unit :=
  modify (fun r =>
    r <| _first := 0 |> <| _viewsLength := 0 |>
      <| _topBufferHeight := 0 |> <| _bottomBufferHeight := 0 |>
      <| itemHeight := 0 |> <| elementsInView := 0 |>);;
  modify (fun r =>
    r <| _ignoreMutation := false |> <| _handlingMutations := false |>
      <| _ticking := false |>);;
  modify (setField _isAtTop true);;
  _updateBufferElements true.

(** [_unsubscribeCollection()] *)
Definition _unsubscribeCollection : M unit :=
  observer ← gets collectionObserver;
  match observer with
  | Some _ =>
      modify (fun r => r <| collectionObserver := None |> <| callContext := None |>)
  | None => mret tt
  end.

(** [_unobserveScrollerSize()] *)
Definition _unobserveScrollerSize : M unit :=
  modify (fun r =>
    r <| _scrollerResizeObserver := false |> <| _scrollerEvents := false |>).

(** [removeAllViews(returnToCache, skipAnimation)] *)
Definition removeAllViews : M unit :=
  modify (setField viewSlot []).

(** [removeEventListener('scroll', scrollListener)] on the given target. *)
Definition removeScrollListener (target : ScrollerRef) : M unit :=
  modify (fun r =>
    match scrollListener r, target with
    | Some HtmlElementRef, HtmlElementRef
    | Some ScrollerElRef, ScrollerElRef => r <| scrollListener := None |>
    | _, _ => r
    end).

(** [clearInterval(id)] *)
Definition clearInterval (id : Z) : M unit :=
  modify (fun r =>
    r <| intervals := filter (fun t => t.1 ≠ id) (intervals r) |>).

(** [detached()] *)
Definition detached : M unit :=
  scrollCt ← gets scrollerEl;
  match scrollCt with
  | None => throw (TypeError "scroller is null")
  | Some el =>
      removeScrollListener
        (if el_hasOverflowScroll el then ScrollerElRef else HtmlElementRef);;
      _unobserveScrollerSize;;
      modify (setField _currScrollerContentRect None);;
      modify (fun r =>
        r <| _isAttached := false |> <| _fixedHeightContainer := false |>);;
      _unsubscribeCollection;;
      _resetCalculation;;
      modify (fun r =>
        r <| topBufferEl := None |> <| bottomBufferEl := None |>
          <| scrollerEl := None |>);;
      removeAllViews;;
      calcDistanceToTopInterval ← gets _calcDistanceToTopInterval;
      clearInterval calcDistanceToTopInterval;;
      sizeInterval ← gets _sizeInterval;
      clearInterval sizeInterval;;
      modify (fun r =>
        r <| distanceToTop := 0 |> <| _sizeInterval := 0 |>
          <| _calcDistanceToTopInterval := 0 |>)
  end.

(** ** Source changes and mutations *)

(** What [itemsChanged] and mutation handling ask of their collaborators,
    none of which is in this file: the strategy locator, the strategy it
    returns, the inner collection of the source expression, the flags of
    [VirtualizationCalculation] and the resize observer class. *)
Class SourceStrategy := {
  getStrategy : Items -> option StrategyRef;
  getCollectionObserver : StrategyRef -> Items -> option CollectionObserver;
  initCalculation : Items -> VirtualRepeat -> Z * VirtualRepeat;
  instanceChanged : Items -> Z -> VirtualRepeat -> VirtualRepeat;
  instanceMutated : Items -> list Splice -> VirtualRepeat -> VirtualRepeat;
  _getInnerCollection : VirtualRepeat -> Items;
  VirtualizationCalculation_reset : Z;
  VirtualizationCalculation_has_sizing : Z;
  VirtualizationCalculation_observe_scroller : Z;
  hasResizeObserverClass : bool
}.

Section SourceHandling.
Context `{SourceStrategy}.

(** [_observeInnerCollection()] *)
Definition _observeInnerCollection : M bool :=
  its ← gets _getInnerCollection;
  match getStrategy its with
  | None => mret false
  | Some strat =>
      match getCollectionObserver strat its with
      | None => mret false
      | Some observer =>
          modify (fun r =>
            r <| collectionObserver := Some observer |>
              <| callContext := Some handleInnerCollectionMutated_ctx |>);;
          mret true
      end
  end.

(** [_observeCollection()] *)
Definition _observeCollection : M unit :=
  strat ← gets strategy;
  match strat with
  | None => throw (TypeError "strategy is null")
  | Some strat =>
      its ← gets items;
      match getCollectionObserver strat its with
      | Some observer =>
          modify (fun r =>
            r <| callContext := Some handleCollectionMutated_ctx |>
              <| collectionObserver := Some observer |>)
      | None => mret tt
      end
  end.

(** [_observeScroller(scrollerEl)] *)
Definition _observeScroller : M unit :=
  when hasResizeObserverClass (modify (setField _scrollerResizeObserver true));;
  modify (setField _scrollerEvents true).

(** [setInterval(cb, 500)]: the host picks an identifier not in use. *)
Definition setInterval (cb : IntervalCallback) : M Z :=
  ids ← gets (fun r => (intervals r).*1);
  let id := 1 + foldr Z.max 0 ids in
  modify (fun r => r <| intervals := intervals r ++ [(id, cb)] |>);;
  mret id.

(** [itemsChanged()] *)
Definition itemsChanged : M unit :=
  _unsubscribeCollection;;
  sc ← gets scope;
  isAttached ← gets _isAttached;
  if negb (bool_decide (is_Some sc)) || negb isAttached then mret tt else
  its ← gets items;
  let strat := getStrategy its in
  modify (setField strategy strat);;
  match strat with
  | None => throw (JsError "Value is not iterateable for virtual repeat.")
  | Some _ =>
      oneTime ← gets isOneTime;
      (if negb oneTime then
         observed ← _observeInnerCollection;
         when (negb observed) _observeCollection
       else mret tt);;
      calculationSignals ← call (initCalculation its);
      first ← gets _first;
      modify (instanceChanged its first);;
      when (negb (Z.land calculationSignals VirtualizationCalculation_reset =? 0))
        _resetCalculation;;
      when (Z.land calculationSignals VirtualizationCalculation_has_sizing =? 0)
        (sizeInterval ← gets _sizeInterval;
         clearInterval sizeInterval;;
         id ← setInterval SizePoll;
         modify (setField _sizeInterval id));;
      when (negb (Z.land calculationSignals
                         VirtualizationCalculation_observe_scroller =? 0))
        _observeScroller
  end.

(** [handleCollectionMutated(collection, changes)] *)
Definition handleCollectionMutated (collection : Items) (changes : list Splice)
  : M unit :=
  ignoreMutation ← gets _ignoreMutation;
  if ignoreMutation : bool then mret tt else
  modify (setField _handlingMutations true);;
  strat ← gets strategy;
  match strat with
  | None => throw (TypeError "strategy is null")
  | Some _ => modify (instanceMutated collection changes)
  end.

End SourceHandling.

(** ** The host: microtasks, animation frames, promises, scrolling *)

#[global] Instance ScrollerRef_eq_dec : EqDecision ScrollerRef.
Proof. solve_decision. Defined.

Section Host.
Context `{ScrollStrategy}.

(** The closure [_onScroll] queues, and the one
    [handleInnerCollectionMutated] queues. *)
Definition runMicroTask (t : MicroTask) : M unit :=
  match t with
  | HandleScrollTask currentScrollerInfo prevScrollerInfo =>
      _handleScroll currentScrollerInfo prevScrollerInfo;;
      modify (setField _ticking false)
  | ResetIgnoreMutationTask => modify (setField _ignoreMutation false)
  end.

(** [executeGetMore] and [revertScrollCheckGuard]. *)
Definition runFrameCallback (cb : FrameCallback) : M unit :=
  match cb with
  | ExecuteGetMore topIndex isNearTop isNearBottom =>
      executeGetMore topIndex isNearTop isNearBottom
  | RevertScrollCheckGuard => modify (setField _ticking false)
  end.

(** An exception that leaves a callback is reported by the host; the
    callbacks after it still run. *)
Definition reportUncaught (m : M unit) : M unit :=
  fun r =>
    match m r with
    | (Throw e, r') =>
        (Normal tt, r' <| uncaughtErrors := uncaughtErrors r' ++ [e] |>)
    | other => other
    end.

Fixpoint runAll (ms : list (M unit)) : M unit :=
  match ms with
  | [] => mret tt
  | m :: rest => reportUncaught m;; runAll rest
  end.

(** The task queue is flushed: the queued callbacks run in order.  None of
    them queues a microtask. *)
Definition flushMicroTaskQueue : M unit :=
  tasks ← gets taskQueue;
  modify (setField taskQueue []);;
  runAll (runMicroTask <$> tasks).

(** A rendering frame: the callbacks requested so far run in order; what
    they request runs in a later frame. *)
Definition animationFrame : M unit :=
  cbs ← gets animationFrames;
  modify (setField animationFrames []);;
  runAll (runFrameCallback <$> cbs).

(** The oldest pending promise of a handler is fulfilled: its reaction
    runs. *)
Definition settlePromise : M unit :=
  reactions ← gets promiseReactions;
  match reactions with
  | [] => mret tt
  | ResetCalledGetMore :: rest =>
      modify (setField promiseReactions rest);;
      modify (setField _calledGetMore false)
  end.

Definition with_scrollTop (top : Z) (e : HTMLElement) : HTMLElement :=
  mkElement (el_scrollHeight e) top (el_calcScrollHeight e)
            (el_hasOverflowScroll e).

(** The scroller [target] is scrolled to [top]; its scroll listener, when
    it is the repeat's, is notified. *)
Definition scrollTo (target : ScrollerRef) (top : Z) : M unit :=
  modify (fun r =>
    match target with
    | HtmlElementRef =>
        r <| documentElement := with_scrollTop top (documentElement r) |>
    | ScrollerElRef =>
        r <| scrollerEl := with_scrollTop top <$> scrollerEl r |>
    end);;
  listener ← gets scrollListener;
  when (bool_decide (listener = Some target)) _onScroll.

Inductive Stimulus :=
| ScrollTo (target : ScrollerRef) (top : Z)
| MicroTaskCheckpoint
| AnimationFrame
| PromiseSettled
| Detached.

Definition react (s : Stimulus) : M unit :=
  match s with
  | ScrollTo target top => scrollTo target top
  | MicroTaskCheckpoint => flushMicroTaskQueue
  | AnimationFrame => animationFrame
  | PromiseSettled => settlePromise
  | Detached => detached
  end.

Fixpoint run (ss : list Stimulus) : M unit :=
  match ss with
  | [] => mret tt
  | s :: rest => react s;; run rest
  end.

End Host.

(** ** The strategy of the spec *)

(** [items.length] of an array source. *)
Definition itemCount (r : VirtualRepeat) : Z :=
  match items r with
  | ItemsArray l => Z.of_nat (length l)
  | _ => 0
  end.

(** Modelled from the spec: the strategy's range computation is not among
    the sources.  Section 4.2 gives [visibleRange]: "start =
    floor(scrollTop_relative / itemHeight), clamped to [0, itemCount -
    minimumViewsToFillViewport]; end = start + minimumViewsToFillViewport -
    1, clamped to itemCount - 1".  The scroll position is taken relative to
    [distanceToTop]; the measured item height is taken positive. *)
Definition spec_visibleRange (r : VirtualRepeat) (info : IScrollerInfo)
  : Z * Z :=
  let start :=
    Z.max 0 (Z.min ((scrollTop info - distanceToTop r) / itemHeight r)
                   (itemCount r - elementsInView r)) in
  (start, Z.min (start + elementsInView r - 1) (itemCount r - 1)).

(** Modelled from the spec: [isNearTop] of the strategy, "index <=
    edgeThreshold". *)
Definition spec_isNearTop (r : VirtualRepeat) (i : Z) : bool :=
  i <=? edgeDistance r.

(** Modelled from the spec: [isNearBottom] of the strategy, "index >=
    itemCount - 1 - edgeThreshold". *)
Definition spec_isNearBottom (r : VirtualRepeat) (i : Z) : bool :=
  i >=? itemCount r - 1 - edgeDistance r.

(** Modelled from the spec: [updateBuffers] of the strategy.  Section 3:
    "topBufferHeight == firstIndex * itemHeight; bottomBufferHeight ==
    max(0, itemCount - firstIndex - length) * itemHeight, recomputed on
    every window mutation". *)
Definition spec_updateBuffers (firstIndex : Z) (r : VirtualRepeat)
  : VirtualRepeat :=
  r <| _topBufferHeight := firstIndex * itemHeight r |>
    <| _bottomBufferHeight :=
         Z.max 0 (itemCount r - firstIndex - _viewsLength r) * itemHeight r |>.

(** Modelled from the spec: [remeasure] of the strategy, which "forces a
    full re-derivation of the visible range and a full rebuild of rendered
    views at that range".  The range is that of the current scroller
    snapshot; the rebuilt views are bound to its indices in order. *)
Definition spec_remeasure (r : VirtualRepeat) : VirtualRepeat :=
  match _currScrollerInfo r with
  | None => r
  | Some info =>
      let '(start, stop) := spec_visibleRange r info in
      let count := Z.to_nat (stop - start + 1) in
      spec_updateBuffers start
        (r <| _first := start |>
           <| _viewsLength := Z.of_nat count |>
           <| viewSlot := (fun k : nat =>
                 mkView k (start + Z.of_nat k)
                        (item_at (items r) (start + Z.of_nat k)) None)
               <$> seq 0 count |>)
  end.

Definition specStrategy : ScrollStrategy := {|
  getViewRange := spec_visibleRange;
  isNearTop := spec_isNearTop;
  isNearBottom := spec_isNearBottom;
  updateBuffers := spec_updateBuffers;
  remeasure := spec_remeasure
|}.

(** ** What the spec says of a move, in its own words *)

(** [$index] of the last view of a rendered set, [-1] when it is empty. *)
Definition last_index (vs : list IView) : Z :=
  match last vs with
  | Some v => index v
  | None => -1
  end.

(** "Move [n] views from the head of the rendered set to the tail,
    rebinding each to its new index", the new index of a moved view being
    the one past the index of the view that is last when it moves. *)
Fixpoint headToTail (its : Items) (n : nat) (vs : list IView)
  : option (list IView) :=
  match n with
  | O => Some vs
  | S n' =>
      match vs with
      | [] => None
      | v :: rest =>
          headToTail its n' (rest ++ [rebind its (last_index vs + 1) v])
      end
  end.

(** ** The example of the spec

    A list of 1000 items of height 20 in a viewport of height 400; twenty
    views, bound to the items 0 to 19, are rendered. *)

Definition example_items : Items := ItemsArray (Z.of_nat <$> seq 0 1000).

Definition example_views (its : Items) (from : Z) (n : nat) : list IView :=
  (fun k : nat =>
     mkView k (from + Z.of_nat k) (item_at its (from + Z.of_nat k)) None)
  <$> seq 0 n.

Definition example_info (top : Z) : IScrollerInfo :=
  mkScrollerInfo ScrollerElRef 20000 top 400.

Definition example_repeat : VirtualRepeat := {|
  _first := 0; _viewsLength := 20;
  _topBufferHeight := 0; _bottomBufferHeight := 19600;
  itemHeight := 20; elementsInView := 20; distanceToTop := 0;
  edgeDistance := 5;
  _isAttached := true; _ticking := false; _fixedHeightContainer := true;
  _isAtTop := true; _calledGetMore := false; _skipNextScrollHandle := false;
  _handlingMutations := false; _ignoreMutation := false; isOneTime := false;
  items := example_items;
  scope := Some (mkScope ∅ (mkOverrideContext ∅ None));
  strategy := Some (StrategyObj 0);
  collectionObserver := Some (ObserverObj 0);
  callContext := Some handleCollectionMutated_ctx;
  viewSlot := example_views example_items 0 20;
  _currScrollerInfo := Some (example_info 0);
  _prevScrollerInfo := Some (example_info 0);
  scrollerEl := Some (mkElement 20000 0 400 true);
  topBufferEl := Some 0; bottomBufferEl := Some 19600;
  _scrollerResizeObserver := false; _scrollerEvents := false;
  _currScrollerContentRect := None;
  _sizeInterval := 0; _calcDistanceToTopInterval := 0;
  taskQueue := []; animationFrames := []; intervals := [];
  promiseReactions := [];
  scrollListener := Some ScrollerElRef;
  documentElement := mkElement 0 0 0 false; innerHeight := 768;
  console := []; handlerCalls := []; uncaughtErrors := []
|}.

(** The same list scrolled close to its end: the views are bound to the
    items 970 to 989, their elements carry [infinite-scroll-next] naming
    the function [loadMore] of the binding context, and a call of
    [loadMore] returns a promise. *)

Definition example_element : ViewElement :=
  mkViewElement (Some (AttrString "loadMore")) (Some "loadMore"%string).

Definition example_context : gmap string Member :=
  {[ "loadMore"%string := MFunction (fun _ _ _ => true) ]}.

Definition example_bottom_repeat : VirtualRepeat :=
  example_repeat
    <| _first := 970 |>
    <| _topBufferHeight := 19400 |> <| _bottomBufferHeight := 200 |>
    <| scope := Some (mkScope example_context
                              (mkOverrideContext example_context None)) |>
    <| viewSlot := (fun v => mkView (view_key v) (index v) (bound v)
                                    (Some example_element))
                   <$> example_views example_items 970 20 |>
    <| _currScrollerInfo := Some (example_info 19400) |>
    <| scrollerEl := Some (mkElement 20000 19400 400 true) |>.

(** Collaborators for the examples of source handling: the locator knows
    arrays and null and nothing else, arrays can be observed, and for a
    list that is rendered already sizing reports success, asks for the
    scroller to be observed and leaves the repeat as it is, as do windowing
    and an empty mutation. *)
Definition example_source : SourceStrategy := {|
  getStrategy := fun its =>
    match its with
    | ItemsArray _ => Some (StrategyObj 0)
    | ItemsNull => Some (StrategyObj 1)
    | ItemsOther _ => None
    end;
  getCollectionObserver := fun _ its =>
    match its with
    | ItemsArray _ => Some (ObserverObj 0)
    | _ => None
    end;
  initCalculation := fun _ r => (6, r);
  instanceChanged := fun _ _ r => r;
  instanceMutated := fun _ _ r => r;
  _getInnerCollection := fun _ => ItemsNull;
  VirtualizationCalculation_reset := 1;
  VirtualizationCalculation_has_sizing := 2;
  VirtualizationCalculation_observe_scroller := 4;
  hasResizeObserverClass := true
|}.

(** The window state: [_first], [_viewsLength], the two buffer heights
    and the item height. *)
Definition windowState (r : VirtualRepeat) : Z * Z * Z * Z * Z :=
  (_first r, _viewsLength r, _topBufferHeight r, _bottomBufferHeight r,
   itemHeight r).

(** ** Binding *)

(** [bind(bindingContext, overrideContext)] *)
Definition bind (bindingContext : gmap string Member)
    (overrideContext : OverrideContext) : M unit :=
  modify (setField scope (Some (mkScope bindingContext overrideContext))).

(** [unbind()] *)
Definition unbind : M unit :=
  modify (fun r => r <| scope := None |> <| items := ItemsNull |>).

(** ** The rendered window *)

(** [$index] of the first view of a rendered set, [-1] when it is empty. *)
Definition first_index (vs : list IView) : Z :=
  match head vs with
  | Some v => index v
  | None => -1
  end.

(** [n] views move from the tail of the rendered set to its head, each
    rebound to the index before that of the view that is first when it
    moves. *)
Fixpoint tailToHead (its : Items) (n : nat) (vs : list IView)
  : option (list IView) :=
  match n with
  | O => Some vs
  | S n' =>
      match last vs with
      | None => None
      | Some v =>
          tailToHead its n' (rebind its (first_index vs - 1) v :: removelast vs)
      end
  end.

(** The views are bound to consecutive indices from [first] on, each to
    the item of the source at its index. *)
Definition windowed (its : Items) (first : Z) (vs : list IView) : Prop :=
  index <$> vs = seqZ first (Z.of_nat (length vs))
  /\ Forall (fun v => bound v = item_at its (index v)) vs.

(** ** One-time bindings of a view *)

Inductive Binding := BindingObj (id : nat).

(** A controller of a view: [boundProperties[k].binding] for each [k]. *)
Record Controller := mkController {
  boundProperties : list Binding
}.

(** What [updateBindings] reads of a view. *)
Record ViewBindings := mkViewBindings {
  bindings : list Binding;
  controllers : list Controller
}.

(** The loop [while (j--) { updateOneTimeBinding(bindings[j]); }]: [log]
    collects the bindings handed to [updateOneTimeBinding]; reading past
    the end of the array raises. *)
Fixpoint updateEach (bs : list Binding) (j : nat) (log : list Binding)
  : option (list Binding) :=
  match j with
  | O => Some log
  | S j' =>
      match bs !! j' with
      | Some b => updateEach bs j' (log ++ [b])
      | None => None
      end
  end.

(** The loop over [controllers], with the loop over the bound properties
    of each inside. *)
Fixpoint updateControllers (cs : list Controller) (j : nat)
    (log : list Binding) : option (list Binding) :=
  match j with
  | O => Some log
  | S j' =>
      match cs !! j' with
      | Some c =>
          log' ← updateEach (boundProperties c)
                            (length (boundProperties c)) log;
          updateControllers cs j' log'
      | None => None
      end
  end.

(** [updateBindings(view)] *)
Definition updateBindings (v : ViewBindings) (log : list Binding)
  : option (list Binding) :=
  log' ← updateEach (bindings v) (length (bindings v)) log;
  updateControllers (controllers v) (length (controllers v)) log'.

(** The list of the example scrolled down by five items, with [n] views
    rendered. *)
Definition example_scrolled_repeat (n : nat) : VirtualRepeat :=
  example_repeat
    <| _first := 5 |>
    <| _topBufferHeight := 100 |> <| _bottomBufferHeight := 19500 |>
    <| viewSlot := example_views example_items 5 n |>
    <| _currScrollerInfo := Some (example_info 100) |>
    <| scrollerEl := Some (mkElement 20000 100 400 true) |>.

(** * Properties *)

(** ** Tactics *)

(** Unfold the plumbing of [M]. *)
Ltac unfold_M :=
  unfold mbind, M_bind, mret, M_ret, gets, modify, throw, diverge, call, when in *.

(** Decide the integer tests of the goal from the hypotheses. *)
Ltac ztests :=
  repeat match goal with
  | |- context [?a <? ?b] => destruct (Z.ltb_spec a b); try lia
  | |- context [?a <=? ?b] => destruct (Z.leb_spec a b); try lia
  | |- context [?a >? ?b] => destruct (Z.gtb_spec a b); try lia
  | |- context [?a >=? ?b] => destruct (Z.geb_spec a b); try lia
  | |- context [?a =? ?b] => destruct (Z.eqb_spec a b); try lia
  end.

(** ** Views *)

Lemma view_None (i : Z) (r : VirtualRepeat) :
  view i r = None <-> i < 0 \/ i >= viewCount r.
Proof.
  unfold view, viewCount.
  destruct (Z.ltb_spec i 0) as [Hneg | Hnonneg]; cbn.
  - split; [left; lia | reflexivity].
  - destruct (Z.gtb_spec i (Z.of_nat (length (viewSlot r)) - 1)) as [Hbig | Hin].
    + split; [right; lia | reflexivity].
    + rewrite lookup_ge_None. lia.
Qed.

Lemma view_head (r : VirtualRepeat) : view 0 r = head (viewSlot r).
Proof.
  unfold view. destruct (viewSlot r) as [| v vs]; [reflexivity |].
  cbn [length]. ztests. reflexivity.
Qed.

Lemma lastView_last (r : VirtualRepeat) : _lastView r = last (viewSlot r).
Proof.
  unfold _lastView, view, viewCount. rewrite last_lookup.
  destruct (viewSlot r) as [| v vs]; [reflexivity |].
  cbn [length]. ztests. f_equal. lia.
Qed.

Lemma lastViewIndex_last_index (r : VirtualRepeat) :
  _lastViewIndex r = last_index (viewSlot r).
Proof. unfold _lastViewIndex, last_index. now rewrite lastView_last. Qed.

(** C10. [view(i)] is null exactly when [i < 0] or [i >= viewCount()], for
    every integer [i]; with no view rendered, [_firstViewIndex()] and
    [_lastViewIndex()] are both [-1]. *)
Theorem view_null_iff_out_of_range :
  forall r : VirtualRepeat,
    (forall i : Z, view i r = None <-> i < 0 \/ i >= viewCount r) /\
    (viewCount r = 0 -> _firstViewIndex r = -1 /\ _lastViewIndex r = -1).
Proof.
  intros r. split; [intros i; apply view_None |].
  intros Hempty. unfold _firstViewIndex, _lastViewIndex, _firstView, _lastView.
  rewrite (proj2 (view_None 0 r)) by lia.
  rewrite (proj2 (view_None (viewCount r - 1) r)) by lia.
  split; reflexivity.
Qed.

Lemma view_null_iff_out_of_range_witness :
  let r := example_repeat <| viewSlot := [] |> in
  viewCount r = 0 /\ _firstViewIndex r = -1 /\ _lastViewIndex r = -1.
Proof.
  split; [reflexivity |].
  apply (proj2 (view_null_iff_out_of_range (example_repeat <| viewSlot := [] |>))).
  reflexivity.
Defined.

(** ** Scroll handling *)

Lemma setField_viewSlot_same (r : VirtualRepeat) :
  r <| viewSlot := viewSlot r |> = r.
Proof. destruct r; reflexivity. Qed.

Lemma headToTail_is_Some (its : Items) (n : nat) :
  forall vs : list IView, vs <> [] -> is_Some (headToTail its n vs).
Proof.
  induction n as [| n IH]; intros vs Hvs; cbn.
  - eauto.
  - destruct vs as [| v rest]; [congruence |].
    apply IH. destruct rest; discriminate.
Qed.

Lemma headToTail_length (its : Items) (n : nat) :
  forall vs vs' : list IView,
    headToTail its n vs = Some vs' -> length vs' = length vs.
Proof.
  induction n as [| n IH]; intros vs vs' Hmove; cbn in Hmove.
  - congruence.
  - destruct vs as [| v rest]; [discriminate |].
    apply IH in Hmove. rewrite Hmove, length_app. cbn. lia.
Qed.

Lemma last_index_snoc (vs : list IView) (v : IView) :
  last_index (vs ++ [v]) = index v.
Proof. unfold last_index. now rewrite last_snoc. Qed.

Lemma headToTail_app (its : Items) (n : nat) :
  forall (vs moved : list IView) (L : Z),
    (n <= length vs)%nat ->
    (n <> 0%nat -> last_index (vs ++ moved) = L) ->
    headToTail its n (vs ++ moved)
    = Some (drop n vs ++ moved
            ++ imap (fun k v => rebind its (L + 1 + Z.of_nat k) v) (take n vs)).
Proof.
  induction n as [| n IH]; intros vs moved L Hn HL.
  - cbn. rewrite drop_0, take_0. cbn. now rewrite app_nil_r.
  - destruct vs as [| v rest]; [cbn in Hn; lia |].
    cbn [headToTail app]. rewrite <- app_assoc.
    change ((v :: rest) ++ moved) with (v :: rest ++ moved) in HL.
    rewrite (HL ltac:(lia)).
    rewrite (IH rest (moved ++ [rebind its (L + 1) v]) (L + 1)).
    + cbn [drop take]. rewrite imap_cons. f_equal. rewrite <- !app_assoc.
      f_equal. f_equal. cbn [app]. f_equal.
      * f_equal. lia.
      * apply imap_ext. intros k x _. cbn. f_equal. lia.
    + cbn in Hn. lia.
    + intros _. rewrite app_assoc. apply last_index_snoc.
Qed.

(** Moving no more views than there are: the views that were not moved
    keep their order, the moved ones follow in the order in which they
    were taken, bound to the indices after the old last index. *)
Lemma headToTail_take_drop (its : Items) (n : nat) (vs : list IView) :
  (n <= length vs)%nat ->
  headToTail its n vs
  = Some (drop n vs
          ++ imap (fun k v => rebind its (last_index vs + 1 + Z.of_nat k) v)
                  (take n vs)).
Proof.
  intros Hn.
  pose proof (headToTail_app its n vs [] (last_index vs) Hn) as Happ.
  rewrite app_nil_r in Happ. apply Happ. reflexivity.
Qed.

(** The loop of [_moveViews] keeps in [lastIndex] the index of the view
    that is last at each round. *)
Lemma moveViewsDown_headToTail (n : nat) :
  forall (r : VirtualRepeat) (vs' : list IView),
    headToTail (items r) n (viewSlot r) = Some vs' ->
    moveViewsDown n (last_index (viewSlot r)) r
    = (Normal tt, r <| viewSlot := vs' |>).
Proof.
  induction n as [| n IH]; intros r vs' Hmove; cbn in Hmove.
  - inversion Hmove; subst. cbn. now rewrite setField_viewSlot_same.
  - destruct (viewSlot r) as [| v rest] eqn:Hvs; [discriminate |].
    cbn [moveViewsDown]. unfold_M. rewrite view_head, Hvs. cbn [head].
    cbn [rebindAndMoveView]. unfold_M. rewrite Hvs. cbn [tail].
    set (r1 := r <| viewSlot := rest ++ [rebind (items r) (last_index (v :: rest) + 1) v] |>).
    assert (Hlast : last_index (v :: rest) + 1 = last_index (viewSlot r1)).
    { unfold last_index at 2. cbn [r1]. cbn. now rewrite last_snoc. }
    rewrite Hlast. rewrite (IH r1 vs'); [reflexivity | exact Hmove].
Qed.

Lemma moveViews_down (k : Z) (r : VirtualRepeat) (vs' : list IView) :
  0 <= k ->
  headToTail (items r) (Z.to_nat k) (viewSlot r) = Some vs' ->
  _moveViews k 1 r = (Normal tt, r <| viewSlot := vs' |>).
Proof.
  intros Hk Hmove. unfold _moveViews. cbn [Z.eqb]. unfold_M. cbn.
  ztests. rewrite lastViewIndex_last_index.
  now apply moveViewsDown_headToTail.
Qed.

Lemma getMore_schedules (t : Z) (nt nb : bool) (r : VirtualRepeat) :
  _getMore t nt nb false r
  = (Normal tt,
     if (nt || nb) && negb (_calledGetMore r)
     then r <| animationFrames := animationFrames r ++ [ExecuteGetMore t nt nb] |>
     else r).
Proof.
  unfold _getMore, requestAnimationFrame. unfold_M.
  rewrite orb_false_r.
  destruct (nt || nb); cbn; [| reflexivity].
  destruct (_calledGetMore r); reflexivity.
Qed.

Section ScrollProofs.
Context `{ScrollStrategy}.

(** [_handleScroll] past its three guards. *)
Lemma handleScroll_proceeds cur prev r s :
  _isAttached r = true -> _skipNextScrollHandle r = false ->
  truthy (items r) = true -> strategy r = Some s ->
  _handleScroll cur prev r =
    ('(didMovedViews, should_call_scroll_next) ←
        handleRanges (_first r) (_lastViewIndex r)
                     (getViewRange r cur).1 (getViewRange r cur).2;
      when (didMovedViews =? 1)
        (modify (setField _first (getViewRange r cur).1);;
         modify (updateBuffers (getViewRange r cur).1));;
      when (negb (should_call_scroll_next =? 0))
        (nearTop ← gets (fun r' => isNearTop r' (getViewRange r cur).1);
         nearBottom ← gets (fun r' => isNearBottom r' (getViewRange r cur).2);
         _getMore (getViewRange r cur).1 nearTop nearBottom false)) r.
Proof.
  intros Ha Hs Hi Hst. unfold _handleScroll. unfold_M.
  rewrite Ha; cbn -[handleRanges _getMore].
  rewrite Hs; cbn -[handleRanges _getMore].
  rewrite Hi; cbn -[handleRanges _getMore].
  rewrite Hst. destruct (getViewRange r cur) as [nS nE]. reflexivity.
Qed.

Lemma handleRanges_pinned_bottom oS oE nS nE r :
  nS >= oS -> oE = nE ->
  handleRanges oS oE nS nE r
  = (Normal (0, if isNearBottom r nE then 1 else 0), r).
Proof. intros. unfold handleRanges. unfold_M. ztests; reflexivity. Qed.

Lemma handleRanges_pinned_top oS oE nS nE r :
  nS < oS -> nE = oE ->
  handleRanges oS oE nS nE r
  = (Normal (0, if isNearTop r nS then -1 else 0), r).
Proof. intros. unfold handleRanges. unfold_M. ztests; reflexivity. Qed.

Lemma handleRanges_down oS oE nS nE r :
  nS > oS -> oE >= nS -> nE > oE ->
  handleRanges oS oE nS nE r = (_moveViews (nS - oS) 1;; mret (1, 1)) r.
Proof. intros. unfold handleRanges. unfold_M. ztests; reflexivity. Qed.

Lemma handleRanges_unclassified oS oE nS nE r :
  ~ (nS >= oS /\ oE = nE) -> ~ (nE = oE /\ oE >= nE) ->
  ~ (nS > oS /\ oE >= nS /\ nE >= oE) ->
  ~ (oS > nS /\ oS <= nE /\ oE >= nE) ->
  ~ (oE < nS \/ oS > nE) ->
  handleRanges oS oE nS nE r
  = (Normal (0, 0),
     remeasure (r <| console := console r ++ ["Scroll intersection not handled"%string] |>)).
Proof.
  intros. unfold handleRanges, console_warn. unfold_M.
  ztests; reflexivity.
Qed.

End ScrollProofs.

(** C2 (amended).  In the pinned-bottom case ([newStart >= oldStart] and
    [oldEnd = newEnd]) and in the pinned-top case that is left once
    pinned-bottom is excluded ([newEnd = oldEnd] and [newStart < oldStart]),
    the handler moves no view and leaves [_first] and both buffer heights
    as they are.  Its only effect is at most one request for
    [executeGetMore]: in the pinned-bottom case when the new end index is
    near the bottom, in the pinned-top case when the new start index is
    near the top, and in both only when no request is in flight. *)
Theorem pinned_cases_only_signal :
  forall (S : ScrollStrategy) (r : VirtualRepeat) (cur : IScrollerInfo)
         (prev : option IScrollerInfo) (s : StrategyRef) (nS nE : Z),
    _isAttached r = true -> _skipNextScrollHandle r = false ->
    truthy (items r) = true -> strategy r = Some s ->
    getViewRange r cur = (nS, nE) ->
    (nS >= _first r /\ _lastViewIndex r = nE)
    \/ (nE = _lastViewIndex r /\ nS < _first r) ->
    let signal :=
      if nS >=? _first r then isNearBottom r nE else isNearTop r nS in
    let r' :=
      if signal && negb (_calledGetMore r)
      then r <| animationFrames :=
                  animationFrames r
                  ++ [ExecuteGetMore nS (isNearTop r nS) (isNearBottom r nE)] |>
      else r in
    _handleScroll cur prev r = (Normal tt, r')
    /\ viewSlot r' = viewSlot r
    /\ _first r' = _first r
    /\ _topBufferHeight r' = _topBufferHeight r
    /\ _bottomBufferHeight r' = _bottomBufferHeight r.
Proof.
  intros S r cur prev s nS nE Ha Hs Hi Hst Hrange Hcase signal r'.
  split.
  - rewrite (handleScroll_proceeds cur prev r s Ha Hs Hi Hst), Hrange.
    cbn [fst snd]. subst r' signal.
    destruct Hcase as [[Hstart Hend] | [Hend Hstart]].
    + unfold mbind, M_bind at 1.
      rewrite (handleRanges_pinned_bottom _ _ _ _ r Hstart Hend).
      destruct (Z.geb_spec nS (_first r)); [| lia].
      destruct (isNearBottom r nE) eqn:Hnb; unfold_M; cbn -[_getMore].
      * rewrite Hnb, getMore_schedules, orb_true_r. reflexivity.
      * reflexivity.
    + unfold mbind, M_bind at 1.
      rewrite (handleRanges_pinned_top _ _ _ _ r Hstart Hend).
      destruct (Z.geb_spec nS (_first r)); [lia |].
      destruct (isNearTop r nS) eqn:Hnt; unfold_M; cbn -[_getMore].
      * rewrite Hnt, getMore_schedules. reflexivity.
      * reflexivity.
  - subst r'. destruct (signal && negb (_calledGetMore r)); auto.
Qed.

Lemma pinned_cases_only_signal_witness :
  let r := example_repeat
             <| _first := 2 |>
             <| viewSlot := example_views example_items 2 18 |> in
  @_handleScroll specStrategy (example_info 0) None r
  = (Normal tt, r <| animationFrames := [ExecuteGetMore 0 true false] |>).
Proof.
  refine (proj1 (pinned_cases_only_signal specStrategy
            (example_repeat
               <| _first := 2 |>
               <| viewSlot := example_views example_items 2 18 |>)
            (example_info 0) None (StrategyObj 0) 0 19 _ _ _ _ _ _)).
  - reflexivity.
  - reflexivity.
  - reflexivity.
  - reflexivity.
  - reflexivity.
  - right. split; [reflexivity | vm_compute; reflexivity].
Defined.

(** C2 as stated fails: with the rendered range and the new range both
    [0..19], the pinned-top condition of the claim holds and the new start
    index is near the top, yet the handler requests nothing. *)
Lemma pinned_top_as_stated_counterexample :
  let r := example_repeat in
  let cur := example_info 0 in
  let nS := (@getViewRange specStrategy r cur).1 in
  let nE := (@getViewRange specStrategy r cur).2 in
  (nE = _lastViewIndex r /\ _lastViewIndex r >= nE)
  /\ @isNearTop specStrategy r nS = true
  /\ _calledGetMore r = false
  /\ @_handleScroll specStrategy cur None r = (Normal tt, r)
  /\ animationFrames r = [].
Proof. vm_compute. repeat split; congruence. Qed.

(** C6.  A transition that is neither pinned, nor overlapping downwards or
    upwards, nor a jump, is answered with the warning "Scroll intersection
    not handled" and a [remeasure] of the strategy; the handler returns
    normally, it does not throw. *)
Theorem unclassified_transition_warns_and_remeasures :
  forall (S : ScrollStrategy) (r : VirtualRepeat) (cur : IScrollerInfo)
         (prev : option IScrollerInfo) (s : StrategyRef) (nS nE : Z),
    _isAttached r = true -> _skipNextScrollHandle r = false ->
    truthy (items r) = true -> strategy r = Some s ->
    getViewRange r cur = (nS, nE) ->
    ~ (nS >= _first r /\ _lastViewIndex r = nE) ->
    ~ (nE = _lastViewIndex r /\ _lastViewIndex r >= nE) ->
    ~ (nS > _first r /\ _lastViewIndex r >= nS /\ nE >= _lastViewIndex r) ->
    ~ (_first r > nS /\ _first r <= nE /\ _lastViewIndex r >= nE) ->
    ~ (_lastViewIndex r < nS \/ _first r > nE) ->
    _handleScroll cur prev r
    = (Normal tt,
       remeasure (r <| console := console r
                         ++ ["Scroll intersection not handled"%string] |>)).
Proof.
  intros S r cur prev s nS nE Ha Hs Hi Hst Hrange H1 H2 H3 H4 H5.
  rewrite (handleScroll_proceeds cur prev r s Ha Hs Hi Hst), Hrange.
  cbn [fst snd]. unfold mbind, M_bind at 1.
  rewrite (handleRanges_unclassified _ _ _ _ r H1 H2 H3 H4 H5).
  reflexivity.
Qed.

Lemma unclassified_transition_warns_and_remeasures_witness :
  let r := example_repeat <| viewSlot := example_views example_items 0 11 |> in
  @_handleScroll specStrategy (example_info 0) None r
  = (Normal tt,
     spec_remeasure (r <| console := ["Scroll intersection not handled"%string] |>)).
Proof.
  refine (unclassified_transition_warns_and_remeasures specStrategy
            (example_repeat <| viewSlot := example_views example_items 0 11 |>)
            (example_info 0) None (StrategyObj 0) 0 19 _ _ _ _ _ _ _ _ _ _);
    vm_compute; try reflexivity; intuition congruence.
Defined.

(** C1 (amended).  When [newStart > oldStart], [oldEnd >= newStart] and
    [newEnd > oldEnd] (with [newEnd = oldEnd] the transition is the pinned
    case, which is tested first), and [_first] is not negative, the handler
    moves [newStart - oldStart] views from the head of the rendered set to
    its tail, each rebound to the index past that of the view then last,
    sets [_first] to [newStart], has the strategy update the buffers and
    passes on to [_getMore].  With 1000 items of height 20 and a viewport
    of 400, scrolling from 0 to 100 moves the five views bound to 0..4 to
    the tail, rebound to 20..24, and leaves [_first = 5]. *)
Theorem scroll_down_overlapping_moves_head_views :
  (forall (S : ScrollStrategy) (r : VirtualRepeat) (cur : IScrollerInfo)
          (prev : option IScrollerInfo) (s : StrategyRef) (nS nE : Z),
     _isAttached r = true -> _skipNextScrollHandle r = false ->
     truthy (items r) = true -> strategy r = Some s ->
     0 <= _first r ->
     getViewRange r cur = (nS, nE) ->
     nS > _first r -> _lastViewIndex r >= nS -> nE > _lastViewIndex r ->
     exists vs' : list IView,
       headToTail (items r) (Z.to_nat (nS - _first r)) (viewSlot r) = Some vs'
       /\ length vs' = length (viewSlot r)
       /\ ((Z.to_nat (nS - _first r) <= length (viewSlot r))%nat ->
             vs' = drop (Z.to_nat (nS - _first r)) (viewSlot r)
                   ++ imap (fun k v =>
                              rebind (items r)
                                     (_lastViewIndex r + 1 + Z.of_nat k) v)
                           (take (Z.to_nat (nS - _first r)) (viewSlot r)))
       /\ let moved :=
            updateBuffers nS (r <| viewSlot := vs' |> <| _first := nS |>) in
          _handleScroll cur prev r
          = _getMore nS (isNearTop moved nS) (isNearBottom moved nE) false moved)
  /\ (let r := example_repeat in
      let after := (@_handleScroll specStrategy (example_info 100)
                                   (Some (example_info 0)) r).2 in
      @getViewRange specStrategy r (example_info 100) = (5, 24)
      /\ (_first r, _lastViewIndex r) = (0, 19)
      /\ (@_handleScroll specStrategy (example_info 100)
                         (Some (example_info 0)) r).1 = Normal tt
      /\ headToTail (items r) 5 (viewSlot r) = Some (viewSlot after)
      /\ view_key <$> viewSlot after
         = [5; 6; 7; 8; 9; 10; 11; 12; 13; 14; 15; 16; 17; 18; 19;
            0; 1; 2; 3; 4]%nat
      /\ index <$> viewSlot after
         = [5; 6; 7; 8; 9; 10; 11; 12; 13; 14; 15; 16; 17; 18; 19;
            20; 21; 22; 23; 24]
      /\ _first after = 5
      /\ _topBufferHeight after = 100
      /\ _bottomBufferHeight after = 19500).
Proof.
  split.
  - intros S r cur prev s nS nE Ha Hs Hi Hst Hfirst Hrange Hstart Hover Hend.
    assert (Hviews : viewSlot r <> []).
    { intros Hnil. rewrite lastViewIndex_last_index, Hnil in Hover.
      cbn in Hover. lia. }
    destruct (headToTail_is_Some (items r) (Z.to_nat (nS - _first r)) _ Hviews)
      as [vs' Hmove].
    exists vs'. split; [exact Hmove |].
    split; [now apply headToTail_length in Hmove |].
    split.
    { intros Hfew. rewrite headToTail_take_drop in Hmove by exact Hfew.
      rewrite lastViewIndex_last_index. congruence. }
    rewrite (handleScroll_proceeds cur prev r s Ha Hs Hi Hst), Hrange.
    cbn [fst snd]. unfold mbind, M_bind at 1.
    rewrite (handleRanges_down _ _ _ _ r Hstart Hover Hend).
    unfold mbind, M_bind at 1.
    rewrite (moveViews_down (nS - _first r) r vs') by (lia || exact Hmove).
    reflexivity.
  - vm_compute. repeat split; reflexivity.
Qed.

Lemma scroll_down_overlapping_moves_head_views_witness :
  exists vs' : list IView,
    headToTail example_items 5 (viewSlot example_repeat) = Some vs'
    /\ length vs' = 20%nat
    /\ (@_handleScroll specStrategy (example_info 100) None example_repeat).2
       = spec_updateBuffers 5
           (example_repeat <| viewSlot := vs' |> <| _first := 5 |>
              <| animationFrames := [ExecuteGetMore 5 true false] |>).
Proof.
  destruct (proj1 scroll_down_overlapping_moves_head_views specStrategy
              example_repeat (example_info 100) None (StrategyObj 0) 5 24)
    as [vs' (Hmove & Hlen & _ & Hrun)].
  - reflexivity.
  - reflexivity.
  - reflexivity.
  - reflexivity.
  - vm_compute; congruence.
  - reflexivity.
  - vm_compute; reflexivity.
  - vm_compute; congruence.
  - vm_compute; reflexivity.
  - exists vs'. split; [exact Hmove |]. split; [exact Hlen |].
    cbv zeta in Hrun. rewrite Hrun. reflexivity.
Defined.

(** C1 as stated fails: with 21 views bound to 0..20 and the new range
    [1..20], all three conditions of the claim hold ([newEnd = oldEnd]),
    yet no view moves and [_first] stays 0. *)
Lemma scroll_down_as_stated_counterexample :
  let r := example_repeat <| viewSlot := example_views example_items 0 21 |> in
  let cur := example_info 20 in
  let nS := (@getViewRange specStrategy r cur).1 in
  let nE := (@getViewRange specStrategy r cur).2 in
  let after := (@_handleScroll specStrategy cur None r).2 in
  (nS > _first r /\ _lastViewIndex r >= nS /\ nE >= _lastViewIndex r)
  /\ nS - _first r = 1
  /\ viewSlot after = viewSlot r
  /\ _first after = 0
  /\ _first after <> nS.
Proof. vm_compute. repeat split; congruence. Qed.

(** ** Detaching *)

Lemma handleScroll_detached `{ScrollStrategy} cur prev r :
  _isAttached r = false -> _handleScroll cur prev r = (Normal tt, r).
Proof.
  intros Hd. unfold _handleScroll. unfold_M. rewrite Hd. reflexivity.
Qed.

(** [detached()] on a repeat whose scroller and buffers exist. *)
Lemma detached_returns (r : VirtualRepeat) :
  is_Some (scrollerEl r) -> is_Some (topBufferEl r) ->
  is_Some (bottomBufferEl r) ->
  exists r' : VirtualRepeat,
    detached r = (Normal tt, r')
    /\ _isAttached r' = false
    /\ windowState r' = (0, 0, 0, 0, 0)
    /\ viewSlot r' = []
    /\ collectionObserver r' = None
    /\ _scrollerResizeObserver r' = false
    /\ _scrollerEvents r' = false
    /\ taskQueue r' = taskQueue r.
Proof.
  intros [el Hel] [top Htop] [bottom Hbottom].
  destruct r; cbn in Hel, Htop, Hbottom; subst.
  destruct el as [sh st ch overflow].
  unfold detached, removeScrollListener, _unobserveScrollerSize,
    _unsubscribeCollection, _resetCalculation, _updateBufferElements,
    removeAllViews, clearInterval, requestAnimationFrame.
  unfold_M. unfold setField.
  destruct scrollListener0 as [[|]|], overflow, collectionObserver0;
    lazy beta iota zeta delta -[filter app];
    eexists; (split; [reflexivity |]); repeat split; reflexivity.
Qed.

(** C5.  After [detached()] has unsubscribed from the collection and from
    the scroller's size and has zeroed the window, a scroll callback that
    was still queued finds the repeat detached: [_handleScroll] changes
    nothing at all, and the callback as a whole only lowers [_ticking]; the
    window state and the (empty) set of views stay as [detached()] left
    them. *)
Theorem detached_pending_scroll_callback_is_noop :
  forall (S : ScrollStrategy) (r : VirtualRepeat) (cur : IScrollerInfo)
         (prev : option IScrollerInfo),
    is_Some (scrollerEl r) -> is_Some (topBufferEl r) ->
    is_Some (bottomBufferEl r) ->
    exists r' : VirtualRepeat,
      detached r = (Normal tt, r')
      /\ taskQueue r' = taskQueue r
      /\ _isAttached r' = false
      /\ collectionObserver r' = None
      /\ _scrollerResizeObserver r' = false
      /\ _scrollerEvents r' = false
      /\ windowState r' = (0, 0, 0, 0, 0)
      /\ viewSlot r' = []
      /\ _handleScroll cur prev r' = (Normal tt, r')
      /\ runMicroTask (HandleScrollTask cur prev) r'
         = (Normal tt, r' <| _ticking := false |>)
      /\ windowState (r' <| _ticking := false |>) = (0, 0, 0, 0, 0)
      /\ viewSlot (r' <| _ticking := false |>) = [].
Proof.
  intros S r cur prev Hel Htop Hbottom.
  destruct (detached_returns r Hel Htop Hbottom)
    as (r' & Hrun & Hatt & Hwin & Hviews & Hobs & Hres & Hev & Hq).
  exists r'. repeat split; try assumption.
  - now apply handleScroll_detached.
  - cbn [runMicroTask]. unfold mbind, M_bind.
    rewrite (handleScroll_detached cur prev r' Hatt). reflexivity.
Qed.

Lemma detached_pending_scroll_callback_is_noop_witness :
  let pending :=
    (@run specStrategy [ScrollTo ScrollerElRef 100] example_repeat).2 in
  taskQueue pending
  = [HandleScrollTask (example_info 100) (Some (example_info 0))]
  /\ exists r' : VirtualRepeat,
       detached pending = (Normal tt, r')
       /\ windowState r' = (0, 0, 0, 0, 0)
       /\ @runMicroTask specStrategy
            (HandleScrollTask (example_info 100) (Some (example_info 0))) r'
          = (Normal tt, r' <| _ticking := false |>).
Proof.
  split; [reflexivity |].
  destruct (detached_pending_scroll_callback_is_noop specStrategy
              (@run specStrategy [ScrollTo ScrollerElRef 100] example_repeat).2
              (example_info 100) (Some (example_info 0)))
    as (r' & Hrun & _ & _ & _ & _ & _ & Hwin & _ & _ & Htask & _).
  - vm_compute. eexists. reflexivity.
  - vm_compute. eexists. reflexivity.
  - vm_compute. eexists. reflexivity.
  - exists r'. repeat split; assumption.
Defined.

(** ** Scroll notifications *)

Lemma onScroll_handling_mutations (r : VirtualRepeat) :
  _handlingMutations r = true ->
  _onScroll r = (Normal tt, r <| _handlingMutations := false |>).
Proof.
  intros Hm. unfold _onScroll. unfold_M. rewrite Hm.
  rewrite andb_false_r. reflexivity.
Qed.

Lemma onScroll_ticking (r : VirtualRepeat) :
  _ticking r = true -> _handlingMutations r = false ->
  _onScroll r = (Normal tt, r).
Proof.
  intros Ht Hm. unfold _onScroll. unfold_M. rewrite Hm, Ht. reflexivity.
Qed.

Lemma onScroll_queues (r : VirtualRepeat) (info : IScrollerInfo) :
  _ticking r = false -> _handlingMutations r = false ->
  getScrollerInfo r = (Normal info, r) ->
  _onScroll r
  = (Normal tt,
     r <| _currScrollerInfo := Some info |>
       <| taskQueue := taskQueue r ++ [HandleScrollTask info (_currScrollerInfo r)] |>
       <| _ticking := true |>).
Proof.
  intros Ht Hm Hinfo. unfold _onScroll, queueMicroTask. unfold_M.
  rewrite Hm, Ht. cbn [negb andb]. rewrite Hinfo. reflexivity.
Qed.

Section HostProofs.
Context `{ScrollStrategy}.

(** While a scroll callback is queued, further scroll events only move
    the scroller. *)
Lemma scrollTo_while_ticking (target : ScrollerRef) (top : Z) (r : VirtualRepeat) :
  _ticking r = true -> _handlingMutations r = false ->
  exists r' : VirtualRepeat,
    scrollTo target top r = (Normal tt, r')
    /\ _ticking r' = true /\ _handlingMutations r' = false
    /\ taskQueue r' = taskQueue r
    /\ _currScrollerInfo r' = _currScrollerInfo r.
Proof.
  intros Ht Hm. unfold scrollTo. unfold_M.
  destruct target; cbn -[_onScroll].
  - destruct (bool_decide _).
    + rewrite onScroll_ticking by assumption. eexists; repeat split; assumption.
    + eexists; repeat split; assumption.
  - destruct (bool_decide _).
    + rewrite onScroll_ticking by assumption. eexists; repeat split; assumption.
    + eexists; repeat split; assumption.
Qed.

Lemma scroll_events_while_ticking (scrolls : list (ScrollerRef * Z)) :
  forall r : VirtualRepeat,
    _ticking r = true -> _handlingMutations r = false ->
    exists r' : VirtualRepeat,
      run (uncurry ScrollTo <$> scrolls) r = (Normal tt, r')
      /\ taskQueue r' = taskQueue r
      /\ _currScrollerInfo r' = _currScrollerInfo r.
Proof.
  induction scrolls as [| [target top] scrolls IH]; intros r Ht Hm;
    cbn [fmap list_fmap run uncurry].
  - exists r. repeat split.
  - destruct (scrollTo_while_ticking target top r Ht Hm)
      as (r1 & Hstep & Ht1 & Hm1 & Hq1 & Hc1).
    destruct (IH r1 Ht1 Hm1) as (r2 & Hrun & Hq2 & Hc2).
    exists r2. cbn [react]. unfold mbind, M_bind. rewrite Hstep.
    repeat split; [exact Hrun | congruence | congruence].
Qed.

End HostProofs.

(** C4 (amended).  Scroll events that arrive before the queued microtask
    runs are coalesced into one scroll computation, and that computation
    uses the snapshot pair of the first of them: the scroller as the first
    event found it, and the snapshot that was current before.  The events
    after it capture nothing and queue nothing. *)
Theorem scroll_events_coalesce_on_first_snapshot :
  forall (S : ScrollStrategy) (r : VirtualRepeat) (info : IScrollerInfo)
         (scrolls : list (ScrollerRef * Z)),
    _ticking r = false -> _handlingMutations r = false ->
    getScrollerInfo r = (Normal info, r) ->
    exists r1 r2 : VirtualRepeat,
      _onScroll r = (Normal tt, r1)
      /\ run (uncurry ScrollTo <$> scrolls) r1 = (Normal tt, r2)
      /\ taskQueue r2
         = taskQueue r ++ [HandleScrollTask info (_currScrollerInfo r)]
      /\ _currScrollerInfo r2 = Some info.
Proof.
  intros S r info scrolls Ht Hm Hinfo.
  pose (r1 := r <| _currScrollerInfo := Some info |>
                 <| taskQueue := taskQueue r
                      ++ [HandleScrollTask info (_currScrollerInfo r)] |>
                 <| _ticking := true |>).
  destruct (scroll_events_while_ticking scrolls r1)
    as (r2 & Hrun & Hq & Hc); [reflexivity | exact Hm |].
  exists r1, r2. split; [apply onScroll_queues; assumption |].
  split; [exact Hrun |]. split; [exact Hq | exact Hc].
Qed.

Lemma scroll_events_coalesce_on_first_snapshot_witness :
  exists r1 r2 : VirtualRepeat,
    _onScroll example_repeat = (Normal tt, r1)
    /\ @run specStrategy
         [ScrollTo ScrollerElRef 150; ScrollTo ScrollerElRef 200;
          ScrollTo HtmlElementRef 300] r1
       = (Normal tt, r2)
    /\ taskQueue r2
       = [HandleScrollTask (example_info 0) (Some (example_info 0))]
    /\ _currScrollerInfo r2 = Some (example_info 0).
Proof.
  apply (scroll_events_coalesce_on_first_snapshot specStrategy example_repeat
           (example_info 0)
           [(ScrollerElRef, 150); (ScrollerElRef, 200); (HtmlElementRef, 300)]);
    reflexivity.
Defined.

(** C4 as stated fails: after scroll events at 100 and then at 200, the
    queued computation holds the snapshot taken at 100 and the one before
    it, not the most recent position, and it leaves [_first] at 5, the
    index for 100. *)
Lemma most_recent_snapshot_counterexample :
  let events := [ScrollTo ScrollerElRef 100; ScrollTo ScrollerElRef 200] in
  let after := (@run specStrategy events example_repeat).2 in
  let done :=
    (@run specStrategy (events ++ [MicroTaskCheckpoint]) example_repeat).2 in
  (getScrollerInfo after).1 = Normal (example_info 200)
  /\ taskQueue after
     = [HandleScrollTask (example_info 100) (Some (example_info 0))]
  /\ taskQueue after
     <> [HandleScrollTask (example_info 200) (Some (example_info 100))]
  /\ _currScrollerInfo after = Some (example_info 100)
  /\ _first done = 5
  /\ (@getViewRange specStrategy done (example_info 200)).1 = 10.
Proof. vm_compute. repeat split; congruence. Qed.

(** ** Mutations *)

Lemma handleCollectionMutated_delegates `{SourceStrategy}
    (collection : Items) (changes : list Splice) (r : VirtualRepeat)
    (s : StrategyRef) :
  _ignoreMutation r = false -> strategy r = Some s ->
  handleCollectionMutated collection changes r
  = (Normal tt,
     instanceMutated collection changes (r <| _handlingMutations := true |>)).
Proof.
  intros Hi Hs. unfold handleCollectionMutated. unfold_M.
  rewrite Hi. cbn. rewrite Hs. reflexivity.
Qed.

(** C7.  A scroll notification that finds [_handlingMutations] set queues
    no microtask, takes no snapshot and clears the flag.
    [handleCollectionMutated] sets the flag before it hands the change to
    the strategy, and, the strategy leaving the flag set, the scroll
    notification that follows the mutation is the one that is dropped. *)
Theorem scroll_during_mutation_handling_is_dropped :
  forall (SS : SourceStrategy) (r : VirtualRepeat),
    (_handlingMutations r = true ->
       _onScroll r = (Normal tt, r <| _handlingMutations := false |>)
       /\ taskQueue (r <| _handlingMutations := false |>) = taskQueue r
       /\ _currScrollerInfo (r <| _handlingMutations := false |>)
          = _currScrollerInfo r)
    /\ (forall (collection : Items) (changes : list Splice) (s : StrategyRef),
          _ignoreMutation r = false -> strategy r = Some s ->
          let mutated :=
            instanceMutated collection changes
                            (r <| _handlingMutations := true |>) in
          handleCollectionMutated collection changes r = (Normal tt, mutated)
          /\ (_handlingMutations mutated = true ->
                (handleCollectionMutated collection changes;; _onScroll) r
                = (Normal tt, mutated <| _handlingMutations := false |>))).
Proof.
  intros SS r. split.
  - intros Hm. split; [now apply onScroll_handling_mutations |].
    split; reflexivity.
  - intros collection changes s Hi Hs mutated.
    pose proof (handleCollectionMutated_delegates collection changes r s Hi Hs)
      as Hrun.
    split; [exact Hrun |].
    intros Hm. unfold mbind, M_bind. rewrite Hrun.
    now apply onScroll_handling_mutations.
Qed.

Lemma scroll_during_mutation_handling_is_dropped_witness :
  let r := example_repeat <| _handlingMutations := true |> in
  _onScroll r = (Normal tt, example_repeat)
  /\ taskQueue example_repeat = []
  /\ (@handleCollectionMutated example_source example_items [];; _onScroll)
       example_repeat
     = (Normal tt, example_repeat).
Proof.
  split; [| split].
  - refine (proj1 (proj1 (scroll_during_mutation_handling_is_dropped
                            example_source
                            (example_repeat <| _handlingMutations := true |>))
                         _)).
    reflexivity.
  - reflexivity.
  - refine (proj2 (proj2 (scroll_during_mutation_handling_is_dropped
                            example_source example_repeat)
                         example_items [] (StrategyObj 0) _ _) _);
      reflexivity.
Defined.

(** ** Asking for more items *)

(** C9.  When the attribute is a string and the binding context of the
    override context holds a function under the name the element gives,
    [executeGetMore] calls it with [(topIndex, isNearBottom, isNearTop)];
    when the attribute is a binding with a source expression, that
    expression is evaluated against the scope.  In both cases the handler
    finds [$scrollContext = { topIndex, isAtBottom, isAtTop }] in the
    override context, and it is still there afterwards. *)
Theorem executeGetMore_passes_scroll_context :
  forall (r : VirtualRepeat) (t : Z) (nt nb : bool) (fv : IView)
         (el : ViewElement) (sc : Scope),
    _firstView r = Some fv -> firstChild fv = Some el -> scope r = Some sc ->
    let ctx := mkScrollContext t nb nt in
    (forall (a name : string) (f : Z -> bool -> bool -> bool),
       au_scroll_next el = Some (AttrString a) ->
       getAttribute_scroll_next el = Some name ->
       oc_bindingContext (overrideContext sc) !! name = Some (MFunction f) ->
       exists r' : VirtualRepeat,
         executeGetMore t nt nb r = (Normal tt, r')
         /\ handlerCalls r' = handlerCalls r ++ [CallFunction name t nb nt (Some ctx)]
         /\ currentScrollContext r' = Some ctx)
    /\ (forall e : Expression,
          au_scroll_next el = Some (AttrBinding (Some e)) ->
          exists r' : VirtualRepeat,
            executeGetMore t nt nb r = (Normal tt, r')
            /\ handlerCalls r' = handlerCalls r ++ [EvaluateExpression e (Some ctx)]
            /\ currentScrollContext r' = Some ctx).
Proof.
  intros r t nt nb fv el sc Hfv Hel Hsc ctx. split.
  - intros a name f Hattr Hname Hfun.
    unfold executeGetMore, recordCall. unfold_M.
    change (_firstView (r <| _calledGetMore := true |>)) with (_firstView r).
    rewrite Hfv. unfold scrollNextAttribute. rewrite Hel, Hattr.
    change (scope (r <| _calledGetMore := true |>)) with (scope r).
    rewrite Hsc. cbn -[lookup]. rewrite Hel. cbn -[lookup]. rewrite Hname. cbn -[lookup]. rewrite Hfun.
    destruct (f t nb nt); cbn; eexists; repeat split; reflexivity.
  - intros e Hattr.
    unfold executeGetMore, recordCall. unfold_M.
    change (_firstView (r <| _calledGetMore := true |>)) with (_firstView r).
    rewrite Hfv. unfold scrollNextAttribute. rewrite Hel, Hattr.
    change (scope (r <| _calledGetMore := true |>)) with (scope r).
    rewrite Hsc. cbn. eexists; repeat split; reflexivity.
Qed.

Lemma executeGetMore_passes_scroll_context_witness :
  exists r' : VirtualRepeat,
    executeGetMore 975 false true example_bottom_repeat = (Normal tt, r')
    /\ handlerCalls r'
       = [CallFunction "loadMore" 975 true false
                       (Some (mkScrollContext 975 true false))]
    /\ currentScrollContext r' = Some (mkScrollContext 975 true false).
Proof.
  refine (proj1 (executeGetMore_passes_scroll_context example_bottom_repeat
                   975 false true
                   (mkView 0 970 (Some 970) (Some example_element))
                   example_element
                   (mkScope example_context
                            (mkOverrideContext example_context None))
                   _ _ _)
                "loadMore"%string "loadMore"%string (fun _ _ _ => true) _ _ _);
    reflexivity.
Defined.

(** While a request is in flight, [_getMore] requests nothing. *)
Lemma getMore_in_flight (t : Z) (nt nb force : bool) (r : VirtualRepeat) :
  _calledGetMore r = true -> _getMore t nt nb force r = (Normal tt, r).
Proof.
  intros Hc. unfold _getMore. unfold_M.
  destruct (nt || nb || force); cbn; [| reflexivity].
  rewrite Hc. reflexivity.
Qed.

(** The flag is raised by [executeGetMore], not by [_getMore]: a request
    leaves it as it was. *)
Lemma getMore_keeps_flag (t : Z) (nt nb force : bool) (r : VirtualRepeat) :
  _calledGetMore (_getMore t nt nb force r).2 = _calledGetMore r.
Proof.
  unfold _getMore, requestAnimationFrame. unfold_M.
  destruct (nt || nb || force); cbn; [| reflexivity].
  destruct (_calledGetMore r) eqn:Hc; cbn; [exact Hc | exact Hc].
Qed.

(** Two signals with no frame between them both pass the guard. *)
Lemma getMore_twice_requests_twice
    (t1 t2 : Z) (nt1 nb1 nt2 nb2 : bool) (r : VirtualRepeat) :
  _calledGetMore r = false -> nt1 || nb1 = true -> nt2 || nb2 = true ->
  (_getMore t1 nt1 nb1 false;; _getMore t2 nt2 nb2 false) r
  = (Normal tt,
     r <| animationFrames :=
            animationFrames r
            ++ [ExecuteGetMore t1 nt1 nb1; ExecuteGetMore t2 nt2 nb2] |>).
Proof.
  intros Hc H1 H2. unfold mbind, M_bind.
  rewrite getMore_schedules, H1, Hc. cbn -[_getMore].
  rewrite getMore_schedules, H2. cbn. rewrite Hc. cbn.
  now rewrite <- app_assoc.
Qed.

(** C3.  The guard does not hold between a request and its frame: two
    scroll computations near the bottom, each in its own microtask turn and
    both before the next frame, request [executeGetMore] twice, and the
    frame calls [loadMore] twice while neither of the promises it returned
    has completed. *)
Theorem two_signals_before_a_frame_call_the_handler_twice :
  let events :=
    [ScrollTo ScrollerElRef 19500; MicroTaskCheckpoint;
     ScrollTo ScrollerElRef 19520; MicroTaskCheckpoint] in
  let before := (@run specStrategy events example_bottom_repeat).2 in
  let after :=
    (@run specStrategy (events ++ [AnimationFrame]) example_bottom_repeat).2 in
  _calledGetMore before = false
  /\ animationFrames before
     = [ExecuteGetMore 975 false true; ExecuteGetMore 976 false true]
  /\ handlerCalls after
     = [CallFunction "loadMore" 975 true false
                     (Some (mkScrollContext 975 true false));
        CallFunction "loadMore" 976 true false
                     (Some (mkScrollContext 976 true false))]
  /\ promiseReactions after = [ResetCalledGetMore; ResetCalledGetMore]
  /\ _calledGetMore after = true.
Proof. vm_compute. repeat split; reflexivity. Qed.

(** ** Source changes *)

(** C8 (amended).  On a repeat that is bound and attached, [itemsChanged]
    throws when the locator has no strategy for the items.  Before it
    throws it has only dropped the collection subscription and stored the
    missing strategy: nothing is observed, sized or rendered. *)
Theorem itemsChanged_throws_without_strategy :
  forall (SS : SourceStrategy) (r : VirtualRepeat),
    is_Some (scope r) -> _isAttached r = true ->
    getStrategy (items r) = None ->
    let r' := (_unsubscribeCollection r).2 <| strategy := None |> in
    itemsChanged r
    = (Throw (JsError "Value is not iterateable for virtual repeat."), r')
    /\ collectionObserver r' = None
    /\ windowState r' = windowState r
    /\ viewSlot r' = viewSlot r
    /\ intervals r' = intervals r
    /\ animationFrames r' = animationFrames r
    /\ _scrollerResizeObserver r' = _scrollerResizeObserver r
    /\ _scrollerEvents r' = _scrollerEvents r.
Proof.
  intros SS r [sc Hsc] Ha Hnone r'. subst r'.
  unfold itemsChanged, _unsubscribeCollection. unfold_M.
  destruct (collectionObserver r) eqn:Hobs; cbn; rewrite Hsc, Ha; cbn;
    rewrite Hnone; cbn; rewrite ?Hobs; repeat split; reflexivity.
Qed.

Lemma itemsChanged_throws_without_strategy_witness :
  let r := example_repeat <| items := ItemsOther true |> in
  @itemsChanged example_source r
  = (Throw (JsError "Value is not iterateable for virtual repeat."),
     r <| collectionObserver := None |> <| callContext := None |>
       <| strategy := None |>).
Proof.
  refine (proj1 (itemsChanged_throws_without_strategy example_source
                   (example_repeat <| items := ItemsOther true |>) _ _ _)).
  - eexists. reflexivity.
  - reflexivity.
  - reflexivity.
Defined.

(** C8 as stated fails: on a repeat that is bound but not attached,
    [itemsChanged] returns normally although the locator has no strategy
    for the items. *)
Lemma itemsChanged_not_attached_counterexample :
  let r := example_repeat <| items := ItemsOther true |>
                          <| _isAttached := false |> in
  @getStrategy example_source (items r) = None
  /\ is_Some (scope r)
  /\ (@itemsChanged example_source r).1 = Normal tt.
Proof. repeat split. eexists. reflexivity. Qed.
